(** * corr_dump_plot: the tracking-dump visualiser of namuru-nano

  A shallow embedding of [sh/corr_dump_plot.py].  The script is a
  straight-line sequence of top-level statements: it loads
  [corr_dump.txt] with [np.loadtxt], slices six columns of the loaded
  table, computes the mean prompt radius and a reference circle, and
  issues the pyplot calls that build three figures.

  The script has no function of its own: every statement is a call into
  numpy or matplotlib.  The modules [Numpy] and [Pyplot] give those calls
  the behaviour the libraries document for the arguments the script
  passes (defaults included: [ndmin=0], [comments='#'], whitespace as the
  delimiter).

  Conventions of the embedding.
  - A float64 is idealised as a real number ([R]): rounding, infinities
    and nan are not represented.  Sums, means and trigonometric values
    are therefore exact.
  - A Python exception is the right injection of [result].
  - The array bound to [d0] lives in the program state ([world]); the
    basic slices [d0[:, j]] are views that are read through the state
    each time they are used, as numpy views are.  Arrays created by
    arithmetic are fresh values.
  - pyplot's global figure registry is the other half of the state.
  - The statements after the load are [corr_dump_plot.body]; the whole
    script, on the content of the file, is [corr_dump_plot.script]. *)

From Stdlib Require Import String Ascii List ZArith Reals Lra Lia Bool.
From Stdlib Require Import Permutation.
Import ListNotations.

Open Scope R_scope.

(** ** Exceptions, and results that may be one *)

Module Py.

Inductive exn : Set :=
| ValueError          (* np.loadtxt: bad token or changing column count;
                         pyplot: x and y of different length; numpy:
                         operands that do not broadcast *)
| IndexError          (* too many indices, or index out of bounds *)
| ZeroDivisionError.  (* np.arange with a zero step *)

Definition result (A : Type) : Type := (A + exn)%type.

Definition ok {A} (a : A) : result A := inl a.
Definition raise {A} (e : exn) : result A := inr e.

Definition rbind {A B} (m : result A) (k : A -> result B) : result B :=
  match m with
  | inl a => k a
  | inr e => inr e
  end.

Fixpoint mapM {A B} (f : A -> result B) (l : list A) : result (list B) :=
  match l with
  | [] => ok []
  | a :: l' =>
      rbind (f a) (fun b => rbind (mapM f l') (fun bs => ok (b :: bs)))
  end.

End Py.

Import Py.

(** ** Text: lines, comments and whitespace-separated fields *)

Module Text.

Open Scope char_scope.

(** Line ends: the file is read in text mode, where LF, CR and CR LF all
  end a line (a CR LF gives one more, empty, piece here, and empty lines
  are skipped by the loader). *)
Definition is_newline (c : ascii) : bool :=
  (c =? "010") || (c =? "013").

(** The ASCII characters [str.split()] and the loadtxt tokenizer treat as
  blank. *)
Definition is_space (c : ascii) : bool :=
  (c =? " ") || (c =? "009") || (c =? "010") || (c =? "011")
  || (c =? "012") || (c =? "013").

(** The pieces of [s] between separator characters, empty pieces
    included. *)
Fixpoint pieces (sep : ascii -> bool) (s : string) : list string :=
  match s with
  | EmptyString => [EmptyString]
  | String c s' =>
      if sep c then EmptyString :: pieces sep s'
      else match pieces sep s' with
           | [] => [String c EmptyString]
           | w :: ws => String c w :: ws
           end
  end.

Definition nonempty (s : string) : bool :=
  match s with EmptyString => false | _ => true end.

Definition lines (content : string) : list string :=
  pieces is_newline content.

(** [comments='#']: the rest of a line from the first [#] is dropped. *)
Fixpoint strip_comment (s : string) : string :=
  match s with
  | EmptyString => EmptyString
  | String c s' => if c =? "#" then EmptyString else String c (strip_comment s')
  end.

(** [delimiter=None]: fields are maximal runs of non-blank characters. *)
Definition fields (line : string) : list string :=
  filter nonempty (pieces is_space (strip_comment line)).

End Text.

(** ** Decimal literals, as [float()] reads them *)

Module Literal.

Open Scope char_scope.
Open Scope Z_scope.

(** A finite decimal: the number [mantissa * 10 ^ exponent]. *)
Record t : Set := mk { mantissa : Z; exponent : Z }.

Definition digit (c : ascii) : option Z :=
  let n := Z.of_nat (nat_of_ascii c) in
  if (48 <=? n) && (n <=? 57) then Some (n - 48) else None.

(** Reads the longest prefix of digits of [s] on top of the value [acc]:
    the new value, the number of digits read, and the rest. *)
Fixpoint digits (acc : Z) (cnt : nat) (s : string) : Z * nat * string :=
  match s with
  | EmptyString => (acc, cnt, s)
  | String c s' =>
      match digit c with
      | Some d => digits (10 * acc + d) (S cnt) s'
      | None => (acc, cnt, s)
      end
  end.

Definition sign (s : string) : bool * string :=
  match s with
  | String "-" s' => (true, s')
  | String "+" s' => (false, s')
  | _ => (false, s)
  end.

Definition signed (neg : bool) (z : Z) : Z := if neg then - z else z.

(** [sign] digits [. digits] [(e|E) [sign] digits], with at least one
    digit before the exponent.  The tokens [inf] and [nan], which
    [float()] also accepts, have no real value and are not literals
    here. *)
Definition parse (s : string) : option t :=
  let (neg, s1) := sign s in
  let '(ip, ni, s2) := digits 0 0 s1 in
  let '(m, nf, s3) :=
    match s2 with
    | String "." s2' => digits ip 0 s2'
    | _ => (ip, 0%nat, s2)
    end in
  if (ni + nf =? 0)%nat then None
  else
    match s3 with
    | EmptyString => Some (mk (signed neg m) (- Z.of_nat nf))
    | String c s4 =>
        if (c =? "e")%char || (c =? "E")%char then
          let (eneg, s5) := sign s4 in
          let '(e, ne, s6) := digits 0 0 s5 in
          if (ne =? 0)%nat then None
          else
            match s6 with
            | EmptyString => Some (mk (signed neg m) (signed eneg e - Z.of_nat nf))
            | _ => None
            end
        else None
    end.

Definition to_R (l : t) : R :=
  if 0 <=? exponent l
  then IZR (mantissa l * 10 ^ exponent l)
  else (IZR (mantissa l) / IZR (10 ^ (- exponent l)))%R.

End Literal.

(** ** pyplot: the registry of figures and the calls the script makes *)

Module Pyplot.

(** A legend label: a fixed text, or the f-string
    [f"Mean radius circle (r={r:.2f})"], kept as the number it formats
    (rendering a real to two decimals is left symbolic). *)
Inductive legend_label : Type :=
| Text (s : string)
| MeanRadiusCircle (r : R).

(** One series, as [plt.plot(x, y, fmt, label=...)] adds it. *)
Record line2d : Type := mk_line {
  xdata : list R;
  ydata : list R;
  fmt : string;
  label : legend_label
}.

Record figure : Type := mk_figure {
  lines : list line2d;
  grid : bool;
  aspect_equal : bool;
  xlabel : string;
  ylabel : string;
  legend : bool;
  tight : bool
}.

(** Figures by number, in order of creation, the number of the current
    one, and whether [plt.show()] has displayed them. *)
Record state : Type := mk_state {
  figs : list (nat * figure);
  current : nat;
  shown : bool
}.

Definition blank : figure :=
  mk_figure [] false false EmptyString EmptyString false false.

Definition initial : state := mk_state [] 0 false.

Definition has (n : nat) (st : state) : bool :=
  existsb (fun e => (fst e =? n)%nat) (figs st).

(** [plt.figure(n)]: makes figure [n] current, creating it if needed. *)
Definition new_figure (n : nat) (st : state) : state :=
  if has n st then mk_state (figs st) n (shown st)
  else mk_state (figs st ++ [(n, blank)]) n (shown st).

Definition next_number (st : state) : nat :=
  S (fold_right Nat.max 0%nat (map fst (figs st))).

(** [plt.gcf()]: the current figure, created when there is none. *)
Definition gcf (st : state) : state :=
  if has (current st) st then st else new_figure (next_number st) st.

Definition on_current (f : figure -> figure) (st : state) : state :=
  let st' := gcf st in
  mk_state
    (map (fun e => if (fst e =? current st')%nat then (fst e, f (snd e)) else e)
         (figs st'))
    (current st') (shown st').

Definition lookup (n : nat) (st : state) : option figure :=
  option_map snd (find (fun e => (fst e =? n)%nat) (figs st)).

Definition add_line (l : line2d) (f : figure) : figure :=
  mk_figure (lines f ++ [l]) (grid f) (aspect_equal f) (xlabel f) (ylabel f)
            (legend f) (tight f).

(** [plt.plot(x, y, fmt, label=lab)]: x and y must have the same
    length. *)
Definition plot (x y : list R) (fm : string) (lab : legend_label)
    (st : state) : result state :=
  if (length x =? length y)%nat
  then ok (on_current (add_line (mk_line x y fm lab)) st)
  else raise ValueError.

Definition set_grid (b : bool) : state -> state :=
  on_current (fun f => mk_figure (lines f) b (aspect_equal f) (xlabel f)
                                 (ylabel f) (legend f) (tight f)).

Definition axis_equal : state -> state :=
  on_current (fun f => mk_figure (lines f) (grid f) true (xlabel f)
                                 (ylabel f) (legend f) (tight f)).

Definition set_xlabel (s : string) : state -> state :=
  on_current (fun f => mk_figure (lines f) (grid f) (aspect_equal f) s
                                 (ylabel f) (legend f) (tight f)).

Definition set_ylabel (s : string) : state -> state :=
  on_current (fun f => mk_figure (lines f) (grid f) (aspect_equal f) (xlabel f)
                                 s (legend f) (tight f)).

Definition set_legend : state -> state :=
  on_current (fun f => mk_figure (lines f) (grid f) (aspect_equal f) (xlabel f)
                                 (ylabel f) true (tight f)).

Definition tight_layout : state -> state :=
  on_current (fun f => mk_figure (lines f) (grid f) (aspect_equal f) (xlabel f)
                                 (ylabel f) (legend f) true).

Definition show (st : state) : state := mk_state (figs st) (current st) true.

End Pyplot.

(** ** numpy: arrays, [loadtxt] and the numeric functions the script calls *)

Module Numpy.

(** A float array of at most two dimensions, by shape: [()], [(n,)] and
    [(n, ncols)]. *)
Inductive ndarray : Type :=
| Scalar (x : R)
| Vector (v : list R)
| Matrix (ncols : nat) (rows : list (list R)).

Definition column (j : nat) (rows : list (list R)) : list R :=
  map (fun row => nth j row 0) rows.

(** The rows of a two-dimensional array (none for the other shapes). *)
Definition dump_rows (d : ndarray) : list (list R) :=
  match d with
  | Matrix _ rows => rows
  | _ => []
  end.

Definition to_float (tok : string) : result R :=
  match Literal.parse tok with
  | Some l => ok (Literal.to_R l)
  | None => raise ValueError
  end.

Definition has_fields (toks : list string) : bool :=
  match toks with [] => false | _ => true end.

(** The lines that hold data: blank lines and comment-only lines are
    skipped. *)
Definition data_lines (content : string) : list (list string) :=
  filter has_fields (map Text.fields (Text.lines content)).

(** A row must have as many fields as the first row, all numeric. *)
Definition read_row (ncols : nat) (toks : list string) : result (list R) :=
  if (length toks =? ncols)%nat then mapM to_float toks else raise ValueError.

Definition read_rows (content : string) : result (nat * list (list R)) :=
  match data_lines content with
  | [] => ok (0%nat, [])
  | (first :: _) as ls =>
      rbind (mapM (read_row (length first)) ls)
            (fun rows => ok (length first, rows))
  end.

(** [ndmin=0]: axes of length one are squeezed out of the result; input
    without data gives an empty one-dimensional array (and a warning). *)
Definition squeeze (ncols : nat) (rows : list (list R)) : ndarray :=
  match rows with
  | [] => Vector []
  | [row] => match row with [x] => Scalar x | _ => Vector row end
  | _ => if (ncols =? 1)%nat then Vector (column 0 rows) else Matrix ncols rows
  end.

(** [np.loadtxt(fname)] on a file with the given content. *)
Definition loadtxt (content : string) : result ndarray :=
  rbind (read_rows content) (fun p => ok (squeeze (fst p) (snd p))).

(** Elementwise binary operation with numpy's broadcasting of a
    one-element operand. *)
Definition zip_with (f : R -> R -> R) (a b : list R) : list R :=
  map (fun p => f (fst p) (snd p)) (combine a b).

Definition broadcast (f : R -> R -> R) (a b : list R) : result (list R) :=
  if (length a =? length b)%nat then ok (zip_with f a b)
  else match a, b with
       | [x], _ => ok (map (f x) b)
       | _, [y] => ok (map (fun x => f x y) a)
       | _, _ => raise ValueError
       end.

Definition square (a : list R) : list R := map (fun x => x ^ 2) a.

Definition sum (a : list R) : R := fold_left Rplus a 0.

(** [np.mean]: sum over count.  On an empty array numpy returns nan
    (with a warning), which a real cannot express: the quotient below is
    then meaningless and no statement uses it there. *)
Definition mean (a : list R) : R := sum a / INR (length a).

(** [np.arange(start, stop, step)] on integers: [start + k * step] for
    [0 <= k < ceil((stop - start) / step)]. *)
Definition arange (start stop step : Z) : result (list Z) :=
  if (step =? 0)%Z then raise ZeroDivisionError
  else
    let n := if (0 <? step)%Z
             then ((stop - start + step - 1) / step)%Z
             else ((start - stop - step - 1) / (- step))%Z in
    ok (map (fun k => (start + Z.of_nat k * step)%Z) (seq 0 (Z.to_nat n))).

(** [np.deg2rad(x)] is [x * (pi / 180)]. *)
Definition deg2rad (x : R) : R := x * (PI / 180).

End Numpy.

(** ** The script *)

Module corr_dump_plot.

Import Numpy.
Open Scope string_scope.

(** The state the statements run in: the array that [d0] names, and
    pyplot's figures. *)
Record world : Type := mk_world {
  dump : ndarray;
  plt : Pyplot.state
}.

Definition M (A : Type) : Type := world -> result (A * world).

Definition ret {A} (a : A) : M A := fun w => ok (a, w).

Definition bind {A B} (m : M A) (k : A -> M B) : M B :=
  fun w => match m w with
           | inl (a, w') => k a w'
           | inr e => inr e
           end.

Definition lift {A} (x : result A) : M A :=
  fun w => match x with
           | inl a => ok (a, w)
           | inr e => inr e
           end.

Notation "x <- m ;; k" := (bind m (fun x => k))
  (at level 61, m at next level, right associativity).
Notation "m ;; k" := (bind m (fun _ => k))
  (at level 61, right associativity).

(** A one-dimensional float array: a column view of [d0], or an array of
    its own. *)
Inductive array : Type :=
| View (j : nat)
| Fresh (v : list R).

(** [d0[:, j]]: needs two dimensions and [j] within the second. *)
Definition getcol (j : nat) : M array :=
  fun w => match dump w with
           | Matrix ncols _ =>
               if (j <? ncols)%nat then ok (View j, w) else raise IndexError
           | _ => raise IndexError
           end.

(** The elements of an array, a view being read from [d0] as it is
    now. *)
Definition read (a : array) : M (list R) :=
  fun w => match a with
           | Fresh v => ok (v, w)
           | View j =>
               match dump w with
               | Matrix ncols rows =>
                   if (j <? ncols)%nat then ok (column j rows, w)
                   else raise IndexError
               | _ => raise IndexError
               end
           end.

(** *** numpy calls *)

Definition np_square (a : array) : M array :=
  v <- read a ;; ret (Fresh (square v)).

Definition np_add (a b : array) : M array :=
  x <- read a ;; y <- read b ;;
  s <- lift (broadcast Rplus x y) ;; ret (Fresh s).

Definition np_sqrt (a : array) : M array :=
  v <- read a ;; ret (Fresh (map sqrt v)).

Definition np_mean (a : array) : M R :=
  v <- read a ;; ret (mean v).

Definition np_arange (start stop step : Z) : M (list Z) :=
  lift (arange start stop step).

Definition np_deg2rad (t : list Z) : M array :=
  ret (Fresh (map (fun d => deg2rad (IZR d)) t)).

Definition np_cos (a : array) : M array :=
  v <- read a ;; ret (Fresh (map cos v)).

Definition np_sin (a : array) : M array :=
  v <- read a ;; ret (Fresh (map sin v)).

(** [x * a] for a scalar [x]. *)
Definition np_scale (x : R) (a : array) : M array :=
  v <- read a ;; ret (Fresh (map (Rmult x) v)).

(** *** pyplot calls *)

Definition on_plt (f : Pyplot.state -> Pyplot.state) : M unit :=
  fun w => ok (tt, mk_world (dump w) (f (plt w))).

Definition plt_figure (n : nat) : M unit := on_plt (Pyplot.new_figure n).

Definition plt_plot (x y : array) (fm : string) (lab : Pyplot.legend_label)
    : M unit :=
  xs <- read x ;; ys <- read y ;;
  fun w => match Pyplot.plot xs ys fm lab (plt w) with
           | inl p => ok (tt, mk_world (dump w) p)
           | inr e => inr e
           end.

Definition plt_grid (b : bool) : M unit := on_plt (Pyplot.set_grid b).
Definition plt_axis_equal : M unit := on_plt Pyplot.axis_equal.
Definition plt_xlabel (s : string) : M unit := on_plt (Pyplot.set_xlabel s).
Definition plt_ylabel (s : string) : M unit := on_plt (Pyplot.set_ylabel s).
Definition plt_legend : M unit := on_plt Pyplot.set_legend.
Definition plt_tight_layout : M unit := on_plt Pyplot.tight_layout.
Definition plt_show : M unit := on_plt Pyplot.show.

(** *** The statements, in the order of the file *)

(** The names the script has bound when it ends ([d0] is [dump]). *)
Record globals : Type := mk_globals {
  t0 : array;
  p0 : array;
  e0 : array;
  l0 : array;
  i0 : array;
  q0 : array;
  r : R;
  th : list Z;
  ic : array;
  qc : array
}.

(** Figure 1: Power vs dump index (lines 28-36). *)
Definition figure_1 (t0 p0 e0 l0 : array) : M unit :=
  plt_figure 1 ;;
  plt_plot t0 p0 "" (Pyplot.Text "Prompt power") ;;
  plt_plot t0 e0 "" (Pyplot.Text "Early power") ;;
  plt_plot t0 l0 "" (Pyplot.Text "Late power") ;;
  plt_grid true ;;
  plt_xlabel "Dump index" ;;
  plt_ylabel "Power (I^2 + Q^2)" ;;
  plt_legend ;;
  plt_tight_layout.

(** Figure 2: I/Q scatter for prompt, and the circle (lines 47-55). *)
Definition figure_2 (i0 q0 ic qc : array) (r : R) : M unit :=
  plt_figure 2 ;;
  plt_plot i0 q0 "." (Pyplot.Text "Prompt I/Q") ;;
  plt_plot ic qc "-" (Pyplot.MeanRadiusCircle r) ;;
  plt_grid true ;;
  plt_axis_equal ;;
  plt_xlabel "I_prompt" ;;
  plt_ylabel "Q_prompt" ;;
  plt_legend ;;
  plt_tight_layout.

(** Figure 3: I/Q prompt vs dump index (lines 59-66). *)
Definition figure_3 (t0 i0 q0 : array) : M unit :=
  plt_figure 3 ;;
  plt_plot t0 i0 "" (Pyplot.Text "I Prompt") ;;
  plt_plot t0 q0 "" (Pyplot.Text "Q Prompt") ;;
  plt_grid true ;;
  plt_xlabel "Dump index" ;;
  plt_ylabel "I/Q_prompt" ;;
  plt_legend ;;
  plt_tight_layout.

(** Lines 20 to 68: everything after the load. *)
Definition body : M globals :=
  t0 <- getcol 0 ;;
  p0 <- getcol 8 ;;
  e0 <- getcol 7 ;;
  l0 <- getcol 9 ;;
  figure_1 t0 p0 e0 l0 ;;
  i0 <- getcol 3 ;;
  q0 <- getcol 4 ;;
  i0_2 <- np_square i0 ;;
  q0_2 <- np_square q0 ;;
  pw <- np_add i0_2 q0_2 ;;
  mag <- np_sqrt pw ;;
  r <- np_mean mag ;;
  th <- np_arange 0 361 5 ;;
  rad <- np_deg2rad th ;;
  c <- np_cos rad ;;
  ic <- np_scale r c ;;
  rad' <- np_deg2rad th ;;
  s <- np_sin rad' ;;
  qc <- np_scale r s ;;
  figure_2 i0 q0 ic qc r ;;
  figure_3 t0 i0 q0 ;;
  plt_show ;;
  ret (mk_globals t0 p0 e0 l0 i0 q0 r th ic qc).

(** The state right after line 18, when the load returned [d]. *)
Definition loaded (d : ndarray) : world := mk_world d Pyplot.initial.

(** The whole script, run on a file [corr_dump.txt] with the given
    content. *)
Definition script (content : string) : result (globals * world) :=
  rbind (loadtxt content) (fun d => body (loaded d)).

(** The elements an array has in a given state ([[]] when a view does
    not fit the table). *)
Definition elements (w : world) (a : array) : list R :=
  match read a w with
  | inl (v, _) => v
  | inr _ => []
  end.

(** The series of figure [n]: label, x data and y data of each of its
    lines, in the order they were plotted. *)
Definition series (n : nat) (w : world)
    : list (Pyplot.legend_label * list R * list R) :=
  match Pyplot.lookup n (plt w) with
  | Some f =>
      map (fun l => (Pyplot.label l, Pyplot.xdata l, Pyplot.ydata l))
          (Pyplot.lines f)
  | None => []
  end.

End corr_dump_plot.

(** ** The specification's own definitions

  Written from the words of the specification, to be compared with what
  the script computes. *)

Module Spec.

Definition i_prompt (row : list R) : R := nth 3 row 0.
Definition q_prompt (row : list R) : R := nth 4 row 0.

(** "Compute magnitude per row: mag = sqrt(i_prompt^2 + q_prompt^2)." *)
Definition magnitude (row : list R) : R :=
  sqrt (i_prompt row * i_prompt row + q_prompt row * q_prompt row).

(** "r = arithmetic mean of mag over all rows." *)
Definition arithmetic_mean (xs : list R) : R :=
  fold_right Rplus 0 xs / INR (length xs).

(** "theta_k = 5 k degrees", and its value in radians. *)
Definition theta (k : nat) : R := 5 * INR k.
Definition radians (deg : R) : R := deg * PI / 180.

(** "x_k = r cos(theta_k in radians), y_k = r sin(theta_k in radians)." *)
Definition circle_point (r : R) (k : nat) : R * R :=
  (r * cos (radians (theta k)), r * sin (radians (theta k))).

(** "every non-empty line must tokenize into exactly 10 numeric
    fields". *)
Definition numeric (tok : string) : bool :=
  match Literal.parse tok with Some _ => true | None => false end.



End Spec.

(** ** What a run leaves behind, as functions of the table

  The values the statements of [corr_dump_plot.body] compute from the
  rows of a two-dimensional [d0], written without the state. *)

Module Derived.

Import Numpy corr_dump_plot.
Open Scope string_scope.

Definition radius (rows : list (list R)) : R :=
  mean (map sqrt (zip_with Rplus (square (column 3 rows))
                                 (square (column 4 rows)))).

Definition angles : list Z :=
  map (fun k => (0 + Z.of_nat k * 5)%Z) (seq 0 73).

Definition circle_i (r : R) : list R :=
  map (Rmult r) (map cos (map (fun d => deg2rad (IZR d)) angles)).

Definition circle_q (r : R) : list R :=
  map (Rmult r) (map sin (map (fun d => deg2rad (IZR d)) angles)).

Definition names (rows : list (list R)) : globals :=
  mk_globals (View 0) (View 8) (View 7) (View 9) (View 3) (View 4)
             (radius rows) angles
             (Fresh (circle_i (radius rows))) (Fresh (circle_q (radius rows))).

Definition line (x y : list R) (fm : string) (lab : Pyplot.legend_label)
    : Pyplot.state -> Pyplot.state :=
  Pyplot.on_current (Pyplot.add_line (Pyplot.mk_line x y fm lab)).

Definition draw_1 (t p e l : list R) (st : Pyplot.state) : Pyplot.state :=
  Pyplot.tight_layout (Pyplot.set_legend
    (Pyplot.set_ylabel "Power (I^2 + Q^2)" (Pyplot.set_xlabel "Dump index"
      (Pyplot.set_grid true
        (line t l "" (Pyplot.Text "Late power")
          (line t e "" (Pyplot.Text "Early power")
            (line t p "" (Pyplot.Text "Prompt power")
              (Pyplot.new_figure 1 st)))))))).

Definition draw_2 (i q ci cq : list R) (r : R) (st : Pyplot.state)
    : Pyplot.state :=
  Pyplot.tight_layout (Pyplot.set_legend
    (Pyplot.set_ylabel "Q_prompt" (Pyplot.set_xlabel "I_prompt"
      (Pyplot.axis_equal (Pyplot.set_grid true
        (line ci cq "-" (Pyplot.MeanRadiusCircle r)
          (line i q "." (Pyplot.Text "Prompt I/Q")
            (Pyplot.new_figure 2 st)))))))).

Definition draw_3 (t i q : list R) (st : Pyplot.state) : Pyplot.state :=
  Pyplot.tight_layout (Pyplot.set_legend
    (Pyplot.set_ylabel "I/Q_prompt" (Pyplot.set_xlabel "Dump index"
      (Pyplot.set_grid true
        (line t q "" (Pyplot.Text "Q Prompt")
          (line t i "" (Pyplot.Text "I Prompt")
            (Pyplot.new_figure 3 st))))))).

Definition figures (rows : list (list R)) (st : Pyplot.state) : Pyplot.state :=
  let r := radius rows in
  Pyplot.show
    (draw_3 (column 0 rows) (column 3 rows) (column 4 rows)
      (draw_2 (column 3 rows) (column 4 rows) (circle_i r) (circle_q r) r
        (draw_1 (column 0 rows) (column 8 rows) (column 7 rows) (column 9 rows)
          st))).

(** What [np.loadtxt] makes of each token and each line. *)
Definition value (tok : string) : R :=
  match Literal.parse tok with
  | Some l => Literal.to_R l
  | None => 0
  end.

Definition conforms (ncols : nat) (toks : list string) : bool :=
  ((length toks =? ncols)%nat && forallb Spec.numeric toks)%bool.

Definition width (content : string) : nat :=
  match data_lines content with
  | [] => 0%nat
  | first :: _ => length first
  end.

End Derived.

(** ** Properties of runs, and the inputs used as examples *)

Module Frame.

Import Numpy corr_dump_plot.

(** In a state whose table is [d], the array [a] has the elements [v],
whatever the figures are. *)
Definition holds (d : ndarray) (a : array) (v : list R) : Prop :=
  forall p, read a (mk_world d p) = inl (v, mk_world d p).

(** A computation that leaves the array of [d0] as it found it. *)
Definition readonly {A} (m : M A) : Prop :=
  forall w a w', m w = inl (a, w') -> dump w' = dump w.

End Frame.

Module Samples.

Open Scope string_scope.

Definition nl : string := String "010"%char EmptyString.

(** The two-row scenario of the specification. *)
Definition spec_file : string :=
  "0 1.0 0.0 3.0 4.0 2.0 0.0 1.0 25.0 4.0" ++ nl ++
  "1 1.0 0.0 0.0 5.0 2.0 0.0 1.0 25.0 4.0" ++ nl.

Definition spec_rows : list (list R) :=
  [ [0; 1; 0; 3; 4; 2; 0; 1; 25; 4];
    [1; 1; 0; 0; 5; 2; 0; 1; 25; 4] ].

(** The same dumps with other early and late sums. *)
Definition other_rows : list (list R) :=
  [ [0; 7; 8; 3; 4; 9; 6; 1; 25; 4];
    [1; -1; 2; 0; 5; 3; 3; 1; 25; 4] ].

(** Its first row alone. *)
Definition one_row_file : string :=
  "0 1.0 0.0 3.0 4.0 2.0 0.0 1.0 25.0 4.0" ++ nl.

Definition one_row : list R := [0; 1; 0; 3; 4; 2; 0; 1; 25; 4].

(** The scenario without its last column, and with one column more. *)
Definition nine_field_line : string := "0 1.0 0.0 3.0 4.0 2.0 0.0 1.0 25.0".

Definition nine_field_file : string :=
  nine_field_line ++ nl ++
  "1 1.0 0.0 0.0 5.0 2.0 0.0 1.0 25.0" ++ nl.

Definition nine_rows : list (list R) :=
  [ [0; 1; 0; 3; 4; 2; 0; 1; 25];
    [1; 1; 0; 0; 5; 2; 0; 1; 25] ].

Definition eleven_field_file : string :=
  "0 1.0 0.0 3.0 4.0 2.0 0.0 1.0 25.0 4.0 9" ++ nl ++
  "1 1.0 0.0 0.0 5.0 2.0 0.0 1.0 25.0 4.0 9" ++ nl.

Definition eleven_rows : list (list R) :=
  [ [0; 1; 0; 3; 4; 2; 0; 1; 25; 4; 9];
    [1; 1; 0; 0; 5; 2; 0; 1; 25; 4; 9] ].


(** Prompt pairs (1, 0) and (0, 1). *)
Definition unit_rows : list (list R) :=
  [ [0; 0; 0; 1; 0; 0; 0; 0; 1; 0];
    [1; 0; 0; 0; 1; 0; 0; 0; 1; 0] ].

End Samples.

Import Numpy corr_dump_plot Frame.

(** * Running the statements *)

Lemma bind_ok {A B} (m : M A) (k : A -> M B) w a w' :
  m w = inl (a, w') -> bind m k w = k a w'.
Proof. intros E. unfold bind. now rewrite E. Qed.

Lemma bind_raise {A B} (m : M A) (k : A -> M B) w e :
  m w = inr e -> bind m k w = inr e.
Proof. intros E. unfold bind. now rewrite E. Qed.

Lemma holds_fresh d v : holds d (Fresh v) v.
Proof. intros p. reflexivity. Qed.

Lemma holds_view nc rows j :
  (j < nc)%nat -> holds (Matrix nc rows) (View j) (column j rows).
Proof.
  intros H p. unfold read. cbn [dump].
  apply Nat.ltb_lt in H. now rewrite H.
Qed.

Lemma getcol_table nc rows j p :
  (j < nc)%nat ->
  getcol j (mk_world (Matrix nc rows) p)
  = inl (View j, mk_world (Matrix nc rows) p).
Proof.
  intros H. unfold getcol. cbn [dump].
  apply Nat.ltb_lt in H. now rewrite H.
Qed.

Lemma getcol_narrow nc rows j p :
  (nc <= j)%nat -> getcol j (mk_world (Matrix nc rows) p) = inr IndexError.
Proof.
  intros H. unfold getcol. cbn [dump].
  apply Nat.ltb_ge in H. now rewrite H.
Qed.

Lemma on_plt_ok f d p : on_plt f (mk_world d p) = inl (tt, mk_world d (f p)).
Proof. reflexivity. Qed.

Lemma plt_plot_ok d x y xs ys fm lab p :
  holds d x xs -> holds d y ys -> length xs = length ys ->
  plt_plot x y fm lab (mk_world d p)
  = inl (tt, mk_world d (Derived.line xs ys fm lab p)).
Proof.
  intros Hx Hy L. unfold plt_plot.
  rewrite (bind_ok _ _ _ _ _ (Hx p)), (bind_ok _ _ _ _ _ (Hy p)).
  cbn [plt dump]. unfold Pyplot.plot. rewrite L, Nat.eqb_refl. reflexivity.
Qed.

(** One pyplot statement of a figure block. *)
Ltac plt_step :=
  first
    [ erewrite bind_ok by (apply on_plt_ok)
    | erewrite bind_ok by (apply plt_plot_ok; eassumption) ].

Lemma figure_1_ok d t p e l ts ps es ls st :
  holds d t ts -> holds d p ps -> holds d e es -> holds d l ls ->
  length ts = length ps -> length ts = length es -> length ts = length ls ->
  figure_1 t p e l (mk_world d st)
  = inl (tt, mk_world d (Derived.draw_1 ts ps es ls st)).
Proof.
  intros Ht Hp He Hl L1 L2 L3.
  unfold figure_1, plt_figure, plt_grid, plt_xlabel, plt_ylabel, plt_legend,
    plt_tight_layout.
  repeat plt_step. reflexivity.
Qed.

Lemma figure_2_ok d i q c s is_ qs cs ss x st :
  holds d i is_ -> holds d q qs -> holds d c cs -> holds d s ss ->
  length is_ = length qs -> length cs = length ss ->
  figure_2 i q c s x (mk_world d st)
  = inl (tt, mk_world d (Derived.draw_2 is_ qs cs ss x st)).
Proof.
  intros Hi Hq Hc Hs L1 L2.
  unfold figure_2, plt_figure, plt_grid, plt_axis_equal, plt_xlabel,
    plt_ylabel, plt_legend, plt_tight_layout.
  repeat plt_step. reflexivity.
Qed.

Lemma figure_3_ok d t i q ts is_ qs st :
  holds d t ts -> holds d i is_ -> holds d q qs ->
  length ts = length is_ -> length ts = length qs ->
  figure_3 t i q (mk_world d st)
  = inl (tt, mk_world d (Derived.draw_3 ts is_ qs st)).
Proof.
  intros Ht Hi Hq L1 L2.
  unfold figure_3, plt_figure, plt_grid, plt_xlabel, plt_ylabel, plt_legend,
    plt_tight_layout.
  repeat plt_step. reflexivity.
Qed.

Lemma np_map_ok (f : list R -> list R) (op : array -> M array) d a v p :
  (forall a, op a = bind (read a) (fun v => ret (Fresh (f v)))) ->
  holds d a v -> op a (mk_world d p) = inl (Fresh (f v), mk_world d p).
Proof.
  intros E H. rewrite E, (bind_ok _ _ _ _ _ (H p)). reflexivity.
Qed.

Lemma np_add_ok d a b x y p :
  holds d a x -> holds d b y -> length x = length y ->
  np_add a b (mk_world d p) = inl (Fresh (zip_with Rplus x y), mk_world d p).
Proof.
  intros Ha Hb L. unfold np_add.
  rewrite (bind_ok _ _ _ _ _ (Ha p)), (bind_ok _ _ _ _ _ (Hb p)).
  unfold broadcast. rewrite L, Nat.eqb_refl. reflexivity.
Qed.

Lemma np_mean_ok d a v p :
  holds d a v -> np_mean a (mk_world d p) = inl (mean v, mk_world d p).
Proof.
  intros H. unfold np_mean. rewrite (bind_ok _ _ _ _ _ (H p)). reflexivity.
Qed.

Lemma np_scale_ok d x a v p :
  holds d a v ->
  np_scale x a (mk_world d p) = inl (Fresh (map (Rmult x) v), mk_world d p).
Proof.
  intros H. unfold np_scale. rewrite (bind_ok _ _ _ _ _ (H p)). reflexivity.
Qed.

Lemma arange_0_361_5 : arange 0 361 5 = inl Derived.angles.
Proof. reflexivity. Qed.

Lemma length_column j rows : length (column j rows) = length rows.
Proof. apply length_map. Qed.

Lemma length_angles : length Derived.angles = 73%nat.
Proof. reflexivity. Qed.

(** The statements after the load, on a table of at least ten columns:
every statement succeeds, and what is left is [Derived.names] and
[Derived.figures]. *)
Lemma body_table nc rows st :
  (10 <= nc)%nat ->
  body (mk_world (Matrix nc rows) st)
  = inl (Derived.names rows,
         mk_world (Matrix nc rows) (Derived.figures rows st)).
Proof.
  intros W. unfold body.
  assert (V : forall j, (j < 10)%nat ->
                        holds (Matrix nc rows) (View j) (column j rows))
    by (intros j Hj; apply holds_view; lia).
  rewrite (bind_ok _ _ _ _ _ (getcol_table nc rows 0 _ ltac:(lia))).
  rewrite (bind_ok _ _ _ _ _ (getcol_table nc rows 8 _ ltac:(lia))).
  rewrite (bind_ok _ _ _ _ _ (getcol_table nc rows 7 _ ltac:(lia))).
  rewrite (bind_ok _ _ _ _ _ (getcol_table nc rows 9 _ ltac:(lia))).
  erewrite bind_ok
    by (apply figure_1_ok; try (apply V; lia); now rewrite !length_column).
  rewrite (bind_ok _ _ _ _ _ (getcol_table nc rows 3 _ ltac:(lia))).
  rewrite (bind_ok _ _ _ _ _ (getcol_table nc rows 4 _ ltac:(lia))).
  erewrite bind_ok
    by (apply (np_map_ok square np_square); [reflexivity | apply V; lia]).
  erewrite bind_ok
    by (apply (np_map_ok square np_square); [reflexivity | apply V; lia]).
  erewrite bind_ok
    by (apply np_add_ok; try apply holds_fresh;
        unfold square; now rewrite !length_map, !length_column).
  erewrite bind_ok
    by (apply (np_map_ok (map sqrt) np_sqrt);
        [reflexivity | apply holds_fresh]).
  erewrite bind_ok by (apply np_mean_ok, holds_fresh).
  unfold np_arange. rewrite arange_0_361_5.
  erewrite bind_ok by reflexivity.
  erewrite bind_ok by reflexivity.
  erewrite bind_ok
    by (apply (np_map_ok (map cos) np_cos); [reflexivity | apply holds_fresh]).
  erewrite bind_ok by (apply np_scale_ok, holds_fresh).
  erewrite bind_ok by reflexivity.
  erewrite bind_ok
    by (apply (np_map_ok (map sin) np_sin); [reflexivity | apply holds_fresh]).
  erewrite bind_ok by (apply np_scale_ok, holds_fresh).
  erewrite bind_ok
    by (apply figure_2_ok; try (apply V; lia); try apply holds_fresh;
        now rewrite ?length_column, ?length_map).
  erewrite bind_ok
    by (apply figure_3_ok; try (apply V; lia); now rewrite !length_column).
  erewrite bind_ok by (apply on_plt_ok).
  reflexivity.
Qed.

(** With fewer than ten columns one of the first four slices is out of
bounds. *)
Lemma body_narrow nc rows st :
  (nc < 10)%nat -> body (mk_world (Matrix nc rows) st) = inr IndexError.
Proof.
  intros H. unfold body.
  destruct (le_lt_dec nc 0) as [H0|H0];
    [now apply bind_raise, getcol_narrow|].
  rewrite (bind_ok _ _ _ _ _ (getcol_table nc rows 0 _ H0)).
  destruct (le_lt_dec nc 8) as [H8|H8];
    [now apply bind_raise, getcol_narrow|].
  rewrite (bind_ok _ _ _ _ _ (getcol_table nc rows 8 _ H8)).
  rewrite (bind_ok _ _ _ _ _ (getcol_table nc rows 7 _ ltac:(lia))).
  apply bind_raise, getcol_narrow. lia.
Qed.

(** An array of fewer than two dimensions cannot be sliced by [[:, 0]]. *)
Lemma body_not_table d st :
  (forall nc rows, d <> Matrix nc rows) ->
  body (mk_world d st) = inr IndexError.
Proof.
  intros H. unfold body. apply bind_raise. unfold getcol. cbn [dump].
  destruct d; try reflexivity. now destruct (H ncols rows).
Qed.

Lemma script_table content g w :
  script content = inl (g, w) ->
  exists nc rows,
    (10 <= nc)%nat /\ loadtxt content = inl (Matrix nc rows)
    /\ g = Derived.names rows
    /\ w = mk_world (Matrix nc rows) (Derived.figures rows Pyplot.initial).
Proof.
  unfold script. destruct (loadtxt content) as [d|e]; [|discriminate].
  cbn [rbind]. unfold loaded. intros E.
  destruct d as [x|v|nc rows].
  - rewrite body_not_table in E by discriminate. discriminate.
  - rewrite body_not_table in E by discriminate. discriminate.
  - destruct (le_lt_dec 10 nc) as [W|W].
    + rewrite body_table in E by exact W. inversion E. now exists nc, rows.
    + rewrite body_narrow in E by exact W. discriminate.
Qed.

Lemma elements_fresh w v : elements w (Fresh v) = v.
Proof. reflexivity. Qed.

Lemma elements_view nc rows p j :
  (j < nc)%nat ->
  elements (mk_world (Matrix nc rows) p) (View j) = column j rows.
Proof.
  intros H. unfold elements. now rewrite (holds_view nc rows j H p).
Qed.

(** The series of the three figures after a run from a fresh pyplot. *)
Lemma series_1_figures d rows :
  series 1 (mk_world d (Derived.figures rows Pyplot.initial))
  = [ (Pyplot.Text "Prompt power", column 0 rows, column 8 rows);
      (Pyplot.Text "Early power", column 0 rows, column 7 rows);
      (Pyplot.Text "Late power", column 0 rows, column 9 rows) ].
Proof. reflexivity. Qed.

Lemma series_2_figures d rows :
  series 2 (mk_world d (Derived.figures rows Pyplot.initial))
  = [ (Pyplot.Text "Prompt I/Q", column 3 rows, column 4 rows);
      (Pyplot.MeanRadiusCircle (Derived.radius rows),
       Derived.circle_i (Derived.radius rows),
       Derived.circle_q (Derived.radius rows)) ].
Proof. reflexivity. Qed.

Lemma series_3_figures d rows :
  series 3 (mk_world d (Derived.figures rows Pyplot.initial))
  = [ (Pyplot.Text "I Prompt", column 0 rows, column 3 rows);
      (Pyplot.Text "Q Prompt", column 0 rows, column 4 rows) ].
Proof. reflexivity. Qed.

Lemma figure_numbers rows :
  map fst (Pyplot.figs (Derived.figures rows Pyplot.initial)) = [1; 2; 3]%nat.
Proof. reflexivity. Qed.

(** * The loader *)

Lemma mapM_to_float toks :
  mapM to_float toks
  = if forallb Spec.numeric toks then inl (map Derived.value toks)
    else inr ValueError.
Proof.
  induction toks as [|tok toks IH]; [reflexivity|].
  cbn [mapM forallb map].
  unfold to_float at 1, Spec.numeric at 1, Derived.value at 1.
  destruct (Literal.parse tok); cbn [rbind ok raise andb]; [|reflexivity].
  rewrite IH. now destruct (forallb Spec.numeric toks).
Qed.

Lemma read_row_conforms n toks :
  read_row n toks
  = if Derived.conforms n toks then inl (map Derived.value toks)
    else inr ValueError.
Proof.
  unfold read_row, Derived.conforms.
  destruct (length toks =? n)%nat; [apply mapM_to_float | reflexivity].
Qed.

Lemma mapM_read_row n ls :
  mapM (read_row n) ls
  = if forallb (Derived.conforms n) ls then inl (map (map Derived.value) ls)
    else inr ValueError.
Proof.
  induction ls as [|toks ls IH]; [reflexivity|].
  cbn [mapM forallb map]. rewrite read_row_conforms.
  destruct (Derived.conforms n toks); cbn [rbind ok andb]; [|reflexivity].
  rewrite IH. now destruct (forallb (Derived.conforms n) ls).
Qed.

Lemma loadtxt_conforms content :
  loadtxt content
  = if forallb (Derived.conforms (Derived.width content)) (data_lines content)
    then inl (squeeze (Derived.width content)
                      (map (map Derived.value) (data_lines content)))
    else inr ValueError.
Proof.
  unfold loadtxt, read_rows, Derived.width.
  destruct (data_lines content) as [|first ls] eqn:E; [reflexivity|].
  rewrite mapM_read_row.
  destruct (forallb (Derived.conforms (length first)) (first :: ls));
    reflexivity.
Qed.

(** A file with a single data line of ten numbers loads as a
one-dimensional array of ten elements, which the first slice rejects. *)
Lemma single_row_loads_flat content toks :
  data_lines content = [toks] -> Derived.conforms 10 toks = true ->
  loadtxt content = inl (Vector (map Derived.value toks))
  /\ script content = inr IndexError.
Proof.
  intros D C.
  assert (L : length toks = 10%nat).
  { unfold Derived.conforms in C. apply andb_prop in C as [C _].
    now apply Nat.eqb_eq in C. }
  assert (E : loadtxt content = inl (Vector (map Derived.value toks))).
  { rewrite loadtxt_conforms. unfold Derived.width. rewrite D, L.
    cbn [forallb]. rewrite C. cbn [andb map squeeze].
    destruct toks as [|a [|b toks]]; try discriminate. reflexivity. }
  split; [exact E|].
  unfold script. rewrite E. cbn [rbind]. unfold loaded.
  apply body_not_table. discriminate.
Qed.

(** Evaluation of the loader on a file given by its text. *)
Ltac parse_literals :=
  repeat match goal with
         | |- context [Literal.parse ?s] =>
             let v := eval vm_compute in (Literal.parse s) in
             change (Literal.parse s) with v
         end.

Ltac literal_value :=
  unfold Literal.to_R; cbn [Literal.exponent Literal.mantissa];
  match goal with
  | |- (if ?b then _ else _) = _ =>
      let v := eval vm_compute in b in change b with v
  end;
  cbv iota;
  repeat match goal with
         | |- context [IZR ?z] =>
             lazymatch z with
             | Z0 => fail
             | Zpos _ => fail
             | Zneg _ => fail
             | _ => let v := eval vm_compute in z in change z with v
             end
         end;
  lra.

Ltac read_file rows :=
  rewrite loadtxt_conforms;
  match goal with
  | |- (if ?b then _ else _) = _ =>
      let v := eval vm_compute in b in change b with v
  end;
  cbv iota;
  match goal with
  | |- context [Derived.width ?c] =>
      let v := eval vm_compute in (Derived.width c) in
      change (Derived.width c) with v
  end;
  match goal with
  | |- context [data_lines ?c] =>
      let v := eval vm_compute in (data_lines c) in
      change (data_lines c) with v
  end;
  cbn [map squeeze Nat.eqb]; unfold Derived.value; parse_literals;
  cbv iota; unfold rows;
  repeat (f_equal; try literal_value).

Lemma loadtxt_spec_file :
  loadtxt Samples.spec_file = inl (Matrix 10 Samples.spec_rows).
Proof. read_file Samples.spec_rows. Qed.

Lemma loadtxt_one_row_file :
  loadtxt Samples.one_row_file = inl (Vector Samples.one_row).
Proof. read_file Samples.one_row. Qed.

Lemma loadtxt_nine_field_file :
  loadtxt Samples.nine_field_file = inl (Matrix 9 Samples.nine_rows).
Proof. read_file Samples.nine_rows. Qed.

Lemma loadtxt_eleven_field_file :
  loadtxt Samples.eleven_field_file = inl (Matrix 11 Samples.eleven_rows).
Proof. read_file Samples.eleven_rows. Qed.

(** With nine columns the load succeeds and the slice [d0[:, 9]] fails;
with eleven the script runs to the end and never looks at the last
column. *)
Lemma script_nine_field_file :
  script Samples.nine_field_file = inr IndexError.
Proof.
  unfold script. rewrite loadtxt_nine_field_file. cbn [rbind].
  apply body_narrow. lia.
Qed.

Lemma script_eleven_field_file :
  script Samples.eleven_field_file
  = inl (Derived.names Samples.eleven_rows,
         mk_world (Matrix 11 Samples.eleven_rows)
                  (Derived.figures Samples.eleven_rows Pyplot.initial)).
Proof.
  unfold script. rewrite loadtxt_eleven_field_file. cbn [rbind].
  apply body_table. lia.
Qed.

Lemma script_spec_file :
  script Samples.spec_file
  = inl (Derived.names Samples.spec_rows,
         mk_world (Matrix 10 Samples.spec_rows)
                  (Derived.figures Samples.spec_rows Pyplot.initial)).
Proof.
  unfold script. rewrite loadtxt_spec_file. cbn [rbind].
  apply body_table. lia.
Qed.

(** * Real arithmetic of the radius and the circle *)

Lemma nth_map_lt {A B} (f : A -> B) (l : list A) k d d' :
  (k < length l)%nat -> nth k (map f l) d = f (nth k l d').
Proof.
  intros H. rewrite (nth_indep _ d (f d')) by now rewrite length_map.
  apply map_nth.
Qed.

Lemma nth_column j k rows :
  (k < length rows)%nat -> nth k (column j rows) 0 = nth j (nth k rows []) 0.
Proof.
  intros H. unfold column.
  exact (nth_map_lt (fun row => nth j row 0) rows k 0 [] H).
Qed.

Lemma nth_angles_Z k :
  (k <= 72)%nat -> nth k Derived.angles 0%Z = (5 * Z.of_nat k)%Z.
Proof.
  intros H. unfold Derived.angles.
  rewrite (nth_map_lt _ _ _ _ 0%nat) by (rewrite length_seq; lia).
  rewrite seq_nth by lia. lia.
Qed.

Lemma nth_angles k :
  (k <= 72)%nat -> IZR (nth k Derived.angles 0%Z) = Spec.theta k.
Proof.
  intros H. rewrite nth_angles_Z by exact H. unfold Spec.theta.
  now rewrite mult_IZR, <- INR_IZR_INZ.
Qed.

Lemma deg2rad_radians x : deg2rad x = Spec.radians x.
Proof. unfold deg2rad, Spec.radians. field. Qed.

Lemma nth_circle_i x k :
  (k <= 72)%nat ->
  nth k (Derived.circle_i x) 0 = x * cos (Spec.radians (Spec.theta k)).
Proof.
  intros H. unfold Derived.circle_i.
  rewrite (nth_map_lt _ _ _ _ 0) by (rewrite !length_map, length_angles; lia).
  rewrite (nth_map_lt _ _ _ _ 0) by (rewrite !length_map, length_angles; lia).
  rewrite (nth_map_lt _ _ _ _ 0%Z) by (rewrite length_angles; lia).
  now rewrite nth_angles, deg2rad_radians.
Qed.

Lemma nth_circle_q x k :
  (k <= 72)%nat ->
  nth k (Derived.circle_q x) 0 = x * sin (Spec.radians (Spec.theta k)).
Proof.
  intros H. unfold Derived.circle_q.
  rewrite (nth_map_lt _ _ _ _ 0) by (rewrite !length_map, length_angles; lia).
  rewrite (nth_map_lt _ _ _ _ 0) by (rewrite !length_map, length_angles; lia).
  rewrite (nth_map_lt _ _ _ _ 0%Z) by (rewrite length_angles; lia).
  now rewrite nth_angles, deg2rad_radians.
Qed.

Lemma length_circle_i x : length (Derived.circle_i x) = 73%nat.
Proof. unfold Derived.circle_i. now rewrite !length_map. Qed.


Lemma radians_theta_0 : Spec.radians (Spec.theta 0) = 0.
Proof. unfold Spec.radians, Spec.theta. simpl. field. Qed.


Lemma magnitudes rows :
  map sqrt (zip_with Rplus (square (column 3 rows)) (square (column 4 rows)))
  = map Spec.magnitude rows.
Proof.
  unfold zip_with, square, column.
  induction rows as [|row rows IH]; [reflexivity|].
  cbn [map combine fst snd]. rewrite IH. f_equal.
  unfold Spec.magnitude, Spec.i_prompt, Spec.q_prompt. f_equal. ring.
Qed.

Lemma sum_fold_right xs : sum xs = fold_right Rplus 0 xs.
Proof. unfold sum. apply fold_symmetric; intros; ring. Qed.

Lemma radius_is_mean rows :
  Derived.radius rows = Spec.arithmetic_mean (map Spec.magnitude rows).
Proof.
  unfold Derived.radius, mean, Spec.arithmetic_mean.
  now rewrite magnitudes, sum_fold_right.
Qed.

Lemma fold_right_constant c (xs : list R) :
  Forall (fun x => x = c) xs -> fold_right Rplus 0 xs = INR (length xs) * c.
Proof.
  induction 1 as [|x xs Hx _ IH].
  - simpl. ring.
  - cbn [fold_right length]. rewrite IH, Hx, S_INR. ring.
Qed.

Lemma mean_constant c (xs : list R) :
  xs <> [] -> Forall (fun x => x = c) xs -> Spec.arithmetic_mean xs = c.
Proof.
  intros N H. unfold Spec.arithmetic_mean.
  rewrite (fold_right_constant c xs H).
  field. apply not_0_INR. destruct xs; [congruence | discriminate].
Qed.

Lemma radius_constant c rows :
  rows <> [] -> Forall (fun row => Spec.magnitude row = c) rows ->
  Derived.radius rows = c.
Proof.
  intros N H. rewrite radius_is_mean. apply mean_constant.
  - destruct rows; [congruence | discriminate].
  - now apply Forall_map.
Qed.


Lemma magnitude_spec_rows :
  Forall (fun row => Spec.magnitude row = 5) Samples.spec_rows.
Proof.
  unfold Samples.spec_rows, Spec.magnitude, Spec.i_prompt, Spec.q_prompt.
  repeat constructor; cbn [nth].
  - replace (3 * 3 + 4 * 4) with (5 * 5) by lra. apply sqrt_square. lra.
  - replace (0 * 0 + 5 * 5) with (5 * 5) by lra. apply sqrt_square. lra.
Qed.

Lemma magnitude_unit_rows :
  Forall (fun row => Spec.magnitude row = 1) Samples.unit_rows.
Proof.
  unfold Samples.unit_rows, Spec.magnitude, Spec.i_prompt, Spec.q_prompt.
  repeat constructor; cbn [nth].
  - replace (1 * 1 + 0 * 0) with 1 by lra. apply sqrt_1.
  - replace (0 * 0 + 1 * 1) with 1 by lra. apply sqrt_1.
Qed.

(** The end-to-end scenario of the specification: dump indices 0 and 1,
prompt powers 25 and 25, magnitudes 5 and 5, radius 5, 73 circle points. *)
Lemma spec_scenario :
  exists g w,
    script Samples.spec_file = inl (g, w)
    /\ elements w (t0 g) = [0; 1]
    /\ elements w (p0 g) = [25; 25]
    /\ Forall (fun row => Spec.magnitude row = 5) (dump_rows (dump w))
    /\ r g = 5
    /\ length (elements w (ic g)) = 73%nat
    /\ map fst (Pyplot.figs (plt w)) = [1; 2; 3]%nat.
Proof.
  eexists. eexists. split; [apply script_spec_file|].
  cbn [t0 p0 r ic Derived.names dump dump_rows plt].
  rewrite !elements_view by lia. rewrite elements_fresh.
  split; [reflexivity|]. split; [reflexivity|].
  split; [apply magnitude_spec_rows|].
  split; [apply radius_constant; [discriminate | apply magnitude_spec_rows]|].
  split; [apply length_circle_i | reflexivity].
Qed.

(** Prompt pairs (1, 0) and (0, 1) give radius 1. *)
Lemma unit_rows_radius : Derived.radius Samples.unit_rows = 1.
Proof. apply radius_constant; [discriminate | apply magnitude_unit_rows]. Qed.

(** * No statement writes the table *)

Lemma readonly_ret {A} (a : A) : readonly (ret a).
Proof.
  intros w b w' E. unfold ret, ok in E. inversion E; subst; cbn [dump]; congruence.
Qed.

Lemma readonly_bind {A B} (m : M A) (k : A -> M B) :
  readonly m -> (forall a, readonly (k a)) -> readonly (bind m k).
Proof.
  intros Hm Hk w b w' E. unfold bind in E.
  destruct (m w) as [[a w1]|e] eqn:Em; [|discriminate].
  rewrite (Hk a w1 b w' E). exact (Hm _ _ _ Em).
Qed.

Lemma readonly_lift {A} (x : result A) : readonly (lift x).
Proof.
  intros w a w' E. unfold lift, ok in E.
  destruct x; inversion E; subst; cbn [dump]; congruence.
Qed.

Lemma readonly_getcol j : readonly (getcol j).
Proof.
  intros w a w' E. unfold getcol, ok, raise in E.
  destruct (dump w) eqn:D; try discriminate.
  destruct (j <? ncols)%nat; inversion E; subst; cbn [dump]; congruence.
Qed.

Lemma readonly_read a : readonly (read a).
Proof.
  intros w v w' E. unfold read, ok, raise in E.
  destruct a as [j|x]; [|inversion E; subst; cbn [dump]; congruence].
  destruct (dump w) eqn:D; try discriminate.
  destruct (j <? ncols)%nat; inversion E; subst; cbn [dump]; congruence.
Qed.

Lemma readonly_on_plt f : readonly (on_plt f).
Proof.
  intros w a w' E. unfold on_plt, ok in E. inversion E; subst; cbn [dump]; congruence.
Qed.

Lemma readonly_plt_plot x y fm lab : readonly (plt_plot x y fm lab).
Proof.
  unfold plt_plot.
  apply readonly_bind; [apply readonly_read | intros xs].
  apply readonly_bind; [apply readonly_read | intros ys].
  intros w a w' E. unfold ok in E.
  destruct (Pyplot.plot xs ys fm lab (plt w)); inversion E; subst; cbn [dump]; congruence.
Qed.

Create HintDb readonly.

#[local] Hint Resolve readonly_ret readonly_lift readonly_getcol readonly_read
  readonly_on_plt readonly_plt_plot : readonly.

Ltac readonly_steps :=
  repeat (apply readonly_bind; [auto with readonly | intros ?]);
  auto with readonly.

Lemma readonly_np_square a : readonly (np_square a).
Proof. unfold np_square. readonly_steps. Qed.

Lemma readonly_np_add a b : readonly (np_add a b).
Proof. unfold np_add. readonly_steps. Qed.

Lemma readonly_np_sqrt a : readonly (np_sqrt a).
Proof. unfold np_sqrt. readonly_steps. Qed.

Lemma readonly_np_mean a : readonly (np_mean a).
Proof. unfold np_mean. readonly_steps. Qed.

Lemma readonly_np_arange a b c : readonly (np_arange a b c).
Proof. unfold np_arange. readonly_steps. Qed.

Lemma readonly_np_deg2rad t : readonly (np_deg2rad t).
Proof. unfold np_deg2rad. readonly_steps. Qed.

Lemma readonly_np_cos a : readonly (np_cos a).
Proof. unfold np_cos. readonly_steps. Qed.

Lemma readonly_np_sin a : readonly (np_sin a).
Proof. unfold np_sin. readonly_steps. Qed.

Lemma readonly_np_scale x a : readonly (np_scale x a).
Proof. unfold np_scale. readonly_steps. Qed.

#[local] Hint Resolve readonly_np_square readonly_np_add readonly_np_sqrt
  readonly_np_mean readonly_np_arange readonly_np_deg2rad readonly_np_cos
  readonly_np_sin readonly_np_scale : readonly.

Lemma readonly_figure_1 t p e l : readonly (figure_1 t p e l).
Proof.
  unfold figure_1, plt_figure, plt_grid, plt_xlabel, plt_ylabel, plt_legend,
    plt_tight_layout.
  readonly_steps.
Qed.

Lemma readonly_figure_2 i q c s x : readonly (figure_2 i q c s x).
Proof.
  unfold figure_2, plt_figure, plt_grid, plt_axis_equal, plt_xlabel,
    plt_ylabel, plt_legend, plt_tight_layout.
  readonly_steps.
Qed.

Lemma readonly_figure_3 t i q : readonly (figure_3 t i q).
Proof.
  unfold figure_3, plt_figure, plt_grid, plt_xlabel, plt_ylabel, plt_legend,
    plt_tight_layout.
  readonly_steps.
Qed.

#[local] Hint Resolve readonly_figure_1 readonly_figure_2 readonly_figure_3
  : readonly.

Lemma readonly_body : readonly body.
Proof. unfold body, plt_show. readonly_steps. Qed.

(** * The claims *)

(** C1.  The radius [r] the script computes is the arithmetic mean, over
all rows of the table, of sqrt(i_prompt^2 + q_prompt^2); in particular,
when every row has prompt magnitude 5, [r] is 5 (so within 1e-9 of 5).
Stated for every table of at least one row and at least ten columns the
statements after the load are run on. *)
Theorem radius_is_mean_prompt_magnitude nc rows :
  (10 <= nc)%nat -> rows <> [] ->
  exists g w,
    body (loaded (Matrix nc rows)) = inl (g, w)
    /\ r g = Spec.arithmetic_mean (map Spec.magnitude rows)
    /\ (Forall (fun row => Spec.magnitude row = 5) rows ->
        r g = 5 /\ Rabs (r g - 5) <= 1 / 10 ^ 9).
Proof.
  intros W N. exists (Derived.names rows). eexists. split; [|split].
  - apply body_table, W.
  - apply radius_is_mean.
  - intros H5. cbn [r Derived.names].
    rewrite (radius_constant 5 rows N H5). split; [reflexivity|].
    replace (5 - 5) with 0 by ring. rewrite Rabs_R0.
    apply Rlt_le, Rdiv_lt_0_compat; [lra | apply pow_lt; lra].
Qed.

Lemma radius_is_mean_prompt_magnitude_witness :
  ((10 <= 10)%nat /\ Samples.spec_rows <> [])
  /\ exists g w,
       body (loaded (Matrix 10 Samples.spec_rows)) = inl (g, w) /\ r g = 5.
Proof.
  split; [split; [lia | discriminate]|].
  destruct (radius_is_mean_prompt_magnitude 10 Samples.spec_rows)
    as (g & w & E & _ & H).
  - lia.
  - discriminate.
  - exists g, w. split; [exact E | apply H, magnitude_spec_rows].
Defined.

(** C2.  A file of exactly one valid ten-field row: the load succeeds, but
with a one-dimensional array of ten numbers, and the first slice
[d0[:, 0]] raises IndexError; no figure is made. *)
Theorem one_row_file_raises_IndexError :
  map (Derived.conforms 10) (data_lines Samples.one_row_file) = [true]
  /\ loadtxt Samples.one_row_file = inl (Vector Samples.one_row)
  /\ length Samples.one_row = 10%nat
  /\ script Samples.one_row_file = inr IndexError.
Proof.
  split; [vm_compute; reflexivity|].
  split; [exact loadtxt_one_row_file|].
  split; [reflexivity|].
  unfold script. rewrite loadtxt_one_row_file. cbn [rbind].
  apply body_not_table. discriminate.
Qed.





(** C5.  The series given to the power plot are the raw columns of the
table: the prompt-power series is column 8, element for element and in
row order, against column 0 on the x axis (and columns 7 and 9 for the
early and late series); nothing is aggregated, filtered or smoothed. *)
Theorem power_plot_series_are_raw_columns nc rows :
  (10 <= nc)%nat -> (1 <= length rows)%nat ->
  exists g w,
    body (loaded (Matrix nc rows)) = inl (g, w)
    /\ series 1 w
       = [ (Pyplot.Text "Prompt power", column 0 rows, column 8 rows);
           (Pyplot.Text "Early power", column 0 rows, column 7 rows);
           (Pyplot.Text "Late power", column 0 rows, column 9 rows) ]
    /\ (forall j, length (column j rows) = length rows)
    /\ (forall j k, (k < length rows)%nat ->
                    nth k (column j rows) 0 = nth j (nth k rows []) 0).
Proof.
  intros W _. exists (Derived.names rows). eexists.
  split; [apply body_table, W|].
  split; [apply series_1_figures|].
  split; [intros j; apply length_column|].
  intros j k Hk. now apply nth_column.
Qed.

Lemma power_plot_series_are_raw_columns_witness :
  ((10 <= 10)%nat /\ (1 <= length Samples.spec_rows)%nat)
  /\ exists g w,
       body (loaded (Matrix 10 Samples.spec_rows)) = inl (g, w)
       /\ nth 0 (series 1 w) (Pyplot.Text "", [], [])
          = (Pyplot.Text "Prompt power", [0; 1], [25; 25]).
Proof.
  split; [split; [lia | simpl; lia]|].
  destruct (power_plot_series_are_raw_columns 10 Samples.spec_rows)
    as (g & w & E & S & _); [lia | simpl; lia |].
  exists g, w. split; [exact E | rewrite S; reflexivity].
Defined.

(** C6.  For every k = 0..72 the k-th point of the circle is
(r cos(theta_k), r sin(theta_k)) with theta_k = 5 k degrees taken in
radians, for the radius [r] the script computed. *)
Theorem circle_points_are_r_cos_sin nc rows k :
  (10 <= nc)%nat -> (k <= 72)%nat ->
  exists g w,
    body (loaded (Matrix nc rows)) = inl (g, w)
    /\ (nth k (elements w (ic g)) 0, nth k (elements w (qc g)) 0)
       = Spec.circle_point (r g) k.
Proof.
  intros W Hk. exists (Derived.names rows). eexists.
  split; [apply body_table, W|].
  cbn [ic qc r Derived.names]. rewrite !elements_fresh.
  unfold Spec.circle_point.
  now rewrite nth_circle_i, nth_circle_q by exact Hk.
Qed.

Lemma circle_points_are_r_cos_sin_witness :
  ((10 <= 10)%nat /\ (18 <= 72)%nat)
  /\ exists g w,
       body (loaded (Matrix 10 Samples.spec_rows)) = inl (g, w)
       /\ (nth 18 (elements w (ic g)) 0, nth 18 (elements w (qc g)) 0)
          = Spec.circle_point (r g) 18.
Proof.
  split; [split; lia|].
  apply (circle_points_are_r_cos_sin 10 Samples.spec_rows 18); lia.
Defined.



(** C8.  The table is loaded once and never written afterwards.  For
every run of the script that ends: the array of [d0] after the three
figures and [plt.show()] is the array the load returned; the figure
blocks, and all the statements after the load taken together, leave that
array as they find it from any state; and the names, the figures and the
contents of the six slices are the functions [Derived.names],
[Derived.figures] and [column] of the loaded rows. *)
Theorem dump_table_never_mutated content g w :
  script content = inl (g, w) ->
  exists nc rows,
    loadtxt content = inl (Matrix nc rows)
    /\ dump w = Matrix nc rows
    /\ (forall t p e l, readonly (figure_1 t p e l))
    /\ (forall i q c s x, readonly (figure_2 i q c s x))
    /\ (forall t i q, readonly (figure_3 t i q))
    /\ readonly body
    /\ g = Derived.names rows
    /\ plt w = Derived.figures rows Pyplot.initial
    /\ map (elements w) [t0 g; p0 g; e0 g; l0 g; i0 g; q0 g]
       = map (fun j => column j rows) [0; 8; 7; 9; 3; 4]%nat.
Proof.
  intros E.
  assert (F : exists d, loadtxt content = inl d /\ body (loaded d) = inl (g, w)).
  { unfold script in E. destruct (loadtxt content) as [d|e]; [|discriminate].
    now exists d. }
  destruct F as (d & Ld & Bd).
  pose proof (readonly_body _ _ _ Bd) as Same. cbn [loaded dump] in Same.
  destruct (script_table content g w E) as (nc & rows & W & L & -> & ->).
  exists nc, rows.
  split; [exact L|].
  split; [rewrite Same; congruence|].
  split; [exact readonly_figure_1|].
  split; [exact readonly_figure_2|].
  split; [exact readonly_figure_3|].
  split; [exact readonly_body|].
  split; [reflexivity|].
  split; [reflexivity|].
  cbn [map t0 p0 e0 l0 i0 q0 Derived.names].
  now rewrite !elements_view by lia.
Qed.

Lemma dump_table_never_mutated_witness :
  script Samples.spec_file
  = inl (Derived.names Samples.spec_rows,
         mk_world (Matrix 10 Samples.spec_rows)
                  (Derived.figures Samples.spec_rows Pyplot.initial))
  /\ exists nc rows,
       loadtxt Samples.spec_file = inl (Matrix nc rows)
       /\ Matrix 10 Samples.spec_rows = Matrix nc rows.
Proof.
  split; [exact script_spec_file|].
  destruct (dump_table_never_mutated Samples.spec_file _ _ script_spec_file)
    as (nc & rows & L & D & _).
  exists nc, rows. split; [exact L | exact D].
Defined.

(** C9.  Two tables that agree on columns 0, 3, 4, 7, 8 and 9 give the
same names, radius, circle and figures, however their early and late I
and Q columns (1, 2, 5, 6) differ. *)
Theorem early_late_columns_do_not_matter nc1 rows1 nc2 rows2 :
  (10 <= nc1)%nat -> (10 <= nc2)%nat ->
  (forall j, In j [0; 3; 4; 7; 8; 9]%nat -> column j rows1 = column j rows2) ->
  exists g1 w1 g2 w2,
    body (loaded (Matrix nc1 rows1)) = inl (g1, w1)
    /\ body (loaded (Matrix nc2 rows2)) = inl (g2, w2)
    /\ plt w1 = plt w2
    /\ (forall n, series n w1 = series n w2)
    /\ g1 = g2
    /\ elements w1 (ic g1) = elements w2 (ic g2)
    /\ elements w1 (qc g1) = elements w2 (qc g2).
Proof.
  intros W1 W2 Agree.
  exists (Derived.names rows1). eexists. exists (Derived.names rows2). eexists.
  split; [apply body_table, W1|].
  split; [apply body_table, W2|].
  assert (R : Derived.radius rows1 = Derived.radius rows2).
  { unfold Derived.radius.
    now rewrite (Agree 3%nat), (Agree 4%nat) by (simpl; tauto). }
  assert (P : Derived.figures rows1 Pyplot.initial
              = Derived.figures rows2 Pyplot.initial).
  { unfold Derived.figures. rewrite R.
    now rewrite (Agree 0%nat), (Agree 3%nat), (Agree 4%nat), (Agree 7%nat),
      (Agree 8%nat), (Agree 9%nat) by (simpl; tauto). }
  assert (G : Derived.names rows1 = Derived.names rows2)
    by (unfold Derived.names; now rewrite R).
  cbn [plt]. split; [exact P|].
  split; [intros n; unfold series; cbn [plt]; now rewrite P|].
  split; [exact G|].
  cbn [ic qc Derived.names]. rewrite !elements_fresh, R.
  split; reflexivity.
Qed.

Lemma early_late_columns_do_not_matter_witness :
  ((10 <= 10)%nat
   /\ (forall j, In j [0; 3; 4; 7; 8; 9]%nat ->
                 column j Samples.spec_rows = column j Samples.other_rows))
  /\ exists g1 w1 g2 w2,
       body (loaded (Matrix 10 Samples.spec_rows)) = inl (g1, w1)
       /\ body (loaded (Matrix 10 Samples.other_rows)) = inl (g2, w2)
       /\ plt w1 = plt w2.
Proof.
  assert (A : forall j, In j [0; 3; 4; 7; 8; 9]%nat ->
                        column j Samples.spec_rows = column j Samples.other_rows).
  { intros j [<-|[<-|[<-|[<-|[<-|[<-|[]]]]]]]; reflexivity. }
  split; [split; [lia | exact A]|].
  destruct (early_late_columns_do_not_matter
              10 Samples.spec_rows 10 Samples.other_rows)
    as (g1 & w1 & g2 & w2 & E1 & E2 & P & _); [lia | lia | exact A |].
  exists g1, w1, g2, w2. repeat split; assumption.
Defined.

(** C10.  Every point of the circle lies on the circle of radius |r|
about the origin: x_k^2 + y_k^2 = r^2 for k = 0..72, in exact real
arithmetic. *)
Theorem circle_points_lie_on_circle nc rows k :
  (10 <= nc)%nat -> (k <= 72)%nat ->
  exists g w,
    body (loaded (Matrix nc rows)) = inl (g, w)
    /\ nth k (elements w (ic g)) 0 * nth k (elements w (ic g)) 0
       + nth k (elements w (qc g)) 0 * nth k (elements w (qc g)) 0
       = r g * r g.
Proof.
  intros W Hk. exists (Derived.names rows). eexists.
  split; [apply body_table, W|].
  cbn [ic qc r Derived.names]. rewrite !elements_fresh.
  rewrite nth_circle_i, nth_circle_q by exact Hk.
  pose proof (sin2_cos2 (Spec.radians (Spec.theta k))) as T.
  unfold Rsqr in T. nra.
Qed.

Lemma circle_points_lie_on_circle_witness :
  ((10 <= 10)%nat /\ (72 <= 72)%nat)
  /\ exists g w,
       body (loaded (Matrix 10 Samples.spec_rows)) = inl (g, w)
       /\ nth 72 (elements w (ic g)) 0 * nth 72 (elements w (ic g)) 0
          + nth 72 (elements w (qc g)) 0 * nth 72 (elements w (qc g)) 0
          = r g * r g.
Proof.
  split; [split; lia|].
  apply (circle_points_lie_on_circle 10 Samples.spec_rows 72); lia.
Defined.

(** * Further properties of the script *)

(** ** What a run ends in, from the content of the file *)


(** ** The only statement after the load that can fail *)


(** ** The shape of a loaded table *)

Lemma data_line_has_fields content toks :
  In toks (data_lines content) -> toks <> [].
Proof.
  unfold data_lines. intros H. apply filter_In in H as [_ H].
  now destruct toks.
Qed.

Lemma conforming_rows n ls :
  forallb (Derived.conforms n) ls = true ->
  Forall (fun row => length row = n) (map (map Derived.value) ls).
Proof.
  intros F. rewrite forallb_forall in F. apply Forall_forall.
  intros row Hrow. apply in_map_iff in Hrow as (toks & <- & Hin).
  specialize (F toks Hin). unfold Derived.conforms in F.
  apply andb_prop in F as [F _]. apply Nat.eqb_eq in F.
  now rewrite length_map.
Qed.

(** X3.  A two-dimensional array returned by the load is rectangular:
it has one row per data line of the file, at least two of them, and every
row has the number of fields of the first data line, which is at least
two. *)
Theorem loaded_table_is_rectangular content nc rows :
  loadtxt content = inl (Matrix nc rows) ->
  nc = Derived.width content
  /\ (2 <= nc)%nat
  /\ length rows = length (data_lines content)
  /\ (2 <= length rows)%nat
  /\ Forall (fun row => length row = nc) rows.
Proof.
  rewrite loadtxt_conforms.
  destruct (forallb _ _) eqn:F; [|discriminate].
  assert (P : (1 <= Derived.width content)%nat \/ data_lines content = []).
  { unfold Derived.width.
    destruct (data_lines content) as [|l1 ls] eqn:D; [now right | left].
    assert (l1 <> []) by (apply (data_line_has_fields content); rewrite D; now left).
    destruct l1; [congruence | simpl; lia]. }
  pose proof (conforming_rows _ _ F) as R.
  remember (Derived.width content) as n eqn:En.
  destruct (data_lines content) as [|l1 [|l2 ls]].
  - discriminate.
  - cbn [map squeeze]. destruct (map Derived.value l1) as [|x [|y t]]; discriminate.
  - cbn [squeeze map] in *. destruct (n =? 1)%nat eqn:E1; [discriminate|].
    intros H. inversion H; subst nc rows. apply Nat.eqb_neq in E1.
    destruct P as [P|P]; [|discriminate].
    repeat split; try (cbn [length]; rewrite ?length_map; lia). exact R.
Qed.

Lemma loaded_table_is_rectangular_witness :
  loadtxt Samples.spec_file = inl (Matrix 10 Samples.spec_rows)
  /\ (2 <= 10)%nat
  /\ Forall (fun row => length row = 10%nat) Samples.spec_rows.
Proof.
  split; [exact loadtxt_spec_file|].
  destruct (loaded_table_is_rectangular _ _ _ loadtxt_spec_file)
    as (_ & W & _ & _ & R).
  split; [exact W | exact R].
Defined.

(** ** Lines without data *)







(** ** The three figures, in full *)



(** ** The radius *)















(** ** The shape of the circle *)

Lemma radians_theta_mirror k :
  (k <= 72)%nat ->
  Spec.radians (Spec.theta (72 - k)) = 2 * PI - Spec.radians (Spec.theta k).
Proof.
  intros H. unfold Spec.radians, Spec.theta.
  rewrite minus_INR by exact H.
  replace (INR 72) with 72 by (rewrite INR_IZR_INZ; reflexivity).
  field.
Qed.

Lemma radians_theta_half_turn k :
  Spec.radians (Spec.theta (k + 36)) = Spec.radians (Spec.theta k) + PI.
Proof.
  unfold Spec.radians, Spec.theta. rewrite plus_INR.
  replace (INR 36) with 36 by (rewrite INR_IZR_INZ; reflexivity).
  field.
Qed.

Lemma radians_theta_18 : Spec.radians (Spec.theta 18) = PI / 2.
Proof.
  unfold Spec.radians, Spec.theta. rewrite INR_IZR_INZ. simpl. field.
Qed.

Lemma radians_theta_36 : Spec.radians (Spec.theta 36) = PI.
Proof.
  unfold Spec.radians, Spec.theta. rewrite INR_IZR_INZ. simpl. field.
Qed.

Lemma radians_theta_54 : Spec.radians (Spec.theta 54) = 3 * (PI / 2).
Proof.
  unfold Spec.radians, Spec.theta. rewrite INR_IZR_INZ. simpl. field.
Qed.

(** X9.  The circle is symmetric: point 72 - k is point k mirrored in the
I axis, and point k + 36 is point k mirrored in the origin. *)
Theorem circle_is_symmetric nc rows k :
  (10 <= nc)%nat -> (k <= 72)%nat ->
  exists g w,
    body (loaded (Matrix nc rows)) = inl (g, w)
    /\ nth (72 - k) (elements w (ic g)) 0 = nth k (elements w (ic g)) 0
    /\ nth (72 - k) (elements w (qc g)) 0 = - nth k (elements w (qc g)) 0
    /\ ((k <= 36)%nat ->
        nth (k + 36) (elements w (ic g)) 0 = - nth k (elements w (ic g)) 0
        /\ nth (k + 36) (elements w (qc g)) 0
           = - nth k (elements w (qc g)) 0).
Proof.
  intros W Hk. exists (Derived.names rows). eexists.
  split; [apply body_table, W|].
  cbn [ic qc Derived.names]. rewrite !elements_fresh.
  split; [|split].
  - rewrite !nth_circle_i by lia. rewrite radians_theta_mirror by exact Hk.
    rewrite cos_minus, cos_2PI, sin_2PI. ring.
  - rewrite !nth_circle_q by lia. rewrite radians_theta_mirror by exact Hk.
    rewrite sin_minus, cos_2PI, sin_2PI. ring.
  - intros H36. rewrite !nth_circle_i, !nth_circle_q by lia.
    rewrite radians_theta_half_turn, neg_cos, neg_sin. split; ring.
Qed.

Lemma circle_is_symmetric_witness :
  ((10 <= 10)%nat /\ (7 <= 72)%nat)
  /\ exists g w,
       body (loaded (Matrix 10 Samples.spec_rows)) = inl (g, w)
       /\ nth (72 - 7) (elements w (qc g)) 0 = - nth 7 (elements w (qc g)) 0.
Proof.
  split; [split; lia|].
  destruct (circle_is_symmetric 10 Samples.spec_rows 7)
    as (g & w & E & _ & S & _); [lia | lia |].
  exists g, w. split; [exact E | exact S].
Defined.

(** X10.  Points 0, 18, 36 and 54 of the circle are (r, 0), (0, r),
(-r, 0) and (0, -r). *)
Theorem circle_crosses_the_axes_at_radius nc rows :
  (10 <= nc)%nat ->
  exists g w,
    body (loaded (Matrix nc rows)) = inl (g, w)
    /\ (nth 0 (elements w (ic g)) 0, nth 0 (elements w (qc g)) 0)
       = (r g, 0)
    /\ (nth 18 (elements w (ic g)) 0, nth 18 (elements w (qc g)) 0)
       = (0, r g)
    /\ (nth 36 (elements w (ic g)) 0, nth 36 (elements w (qc g)) 0)
       = (- r g, 0)
    /\ (nth 54 (elements w (ic g)) 0, nth 54 (elements w (qc g)) 0)
       = (0, - r g).
Proof.
  intros W. exists (Derived.names rows). eexists.
  split; [apply body_table, W|].
  cbn [ic qc r Derived.names]. rewrite !elements_fresh.
  rewrite !nth_circle_i, !nth_circle_q by lia.
  rewrite radians_theta_0, radians_theta_18, radians_theta_36,
    radians_theta_54.
  rewrite cos_0, sin_0, cos_PI2, sin_PI2, cos_PI, sin_PI, cos_3PI2, sin_3PI2.
  repeat split; f_equal; ring.
Qed.

Lemma circle_crosses_the_axes_at_radius_witness :
  (10 <= 10)%nat
  /\ exists g w,
       body (loaded (Matrix 10 Samples.spec_rows)) = inl (g, w)
       /\ (nth 18 (elements w (ic g)) 0, nth 18 (elements w (qc g)) 0)
          = (0, r g).
Proof.
  split; [lia|].
  destruct (circle_crosses_the_axes_at_radius 10 Samples.spec_rows)
    as (g & w & E & _ & Q & _); [lia|].
  exists g, w. split; [exact E | exact Q].
Defined.
